(** * Sales Value Matrix: the scoring and quadrant classification

    A shallow embedding of [process_uploaded_data], [process_data] and the
    data path of [handle_upload] from [sales_value_matrix_master.py], with
    the pandas operations they use written out over column lists.

    Conventions.
    - A Python [str] is a [string]; [lower] and [strip] act on ASCII letters
      and ASCII white space.  Python folds further code points, but no code
      point outside ASCII lowers to a letter of the vocabularies used here,
      and none lowers to an ASCII capital.
    - A pandas cell is a [cell]: a missing value, a text, an int64 or a
      float64 holding an integral value.  The code reads input cells only
      through [dropna] and [astype(str)], so any other input value is the
      text [str] prints for it.
    - A [DataFrame] is its row count together with its named columns, in
      column order.  [df[col]] on an absent column raises [KeyError]; this is
      [None] in the [option] monad.
    - [max_score * 0.65] is the exact rational (see [value_threshold]);
      [float_thresholds_agree] checks it against the binary64 product. *)

From Stdlib Require Import List String Ascii ZArith QArith Lia Bool Arith.
From Stdlib Require Import DecimalString Floats Uint63 Lqa.
Import ListNotations.

Open Scope string_scope.
Open Scope Z_scope.

(** ** Python strings *)

Module PyStr.

Definition is_upper (c : ascii) : bool :=
  let n := nat_of_ascii c in (Nat.leb 65 n && Nat.leb n 90)%bool.

Definition lower_char (c : ascii) : ascii :=
  if is_upper c then ascii_of_nat (nat_of_ascii c + 32) else c.

(** [str.lower] *)
Fixpoint lower (s : string) : string :=
  match s with
  | EmptyString => EmptyString
  | String c r => String (lower_char c) (lower r)
  end.

(** [str.isspace] on one ASCII character: tab, line feed, vertical tab,
    form feed, carriage return, the four separators 0x1c..0x1f, space. *)
Definition isspace (c : ascii) : bool :=
  let n := nat_of_ascii c in
  ((Nat.leb 9 n && Nat.leb n 13) || (Nat.leb 28 n && Nat.leb n 32))%bool.

Fixpoint lstrip (s : string) : string :=
  match s with
  | EmptyString => EmptyString
  | String c r => if isspace c then lstrip r else s
  end.

Fixpoint rstrip (s : string) : string :=
  match s with
  | EmptyString => EmptyString
  | String c r =>
      match rstrip r with
      | EmptyString => if isspace c then EmptyString else String c EmptyString
      | r' => String c r'
      end
  end.

(** [str.strip] *)
Definition strip (s : string) : string := lstrip (rstrip s).

(** [sub in s] *)
Fixpoint contains (sub s : string) : bool :=
  (String.prefix sub s
   || match s with
      | EmptyString => false
      | String _ r => contains sub r
      end)%bool.

(** [x in [a, b, ...]] for a list of strings *)
Definition py_in (x : string) (l : list string) : bool :=
  existsb (String.eqb x) l.

(** Whether some character of [s] is an ASCII capital *)
Fixpoint has_upper (s : string) : bool :=
  match s with
  | EmptyString => false
  | String c r => (is_upper c || has_upper r)%bool
  end.

(** [str(z)] for an integer *)
Definition str_of_Z (z : Z) : string := NilEmpty.string_of_int (Z.to_int z).

End PyStr.
Import PyStr.

(** ** Cells, Series and DataFrames *)

Inductive cell : Type :=
| NaN                 (* missing value *)
| Str (s : string)    (* object cell holding a str *)
| Int (z : Z)         (* int64 *)
| Flt (z : Z).        (* float64 holding the integral value z *)

Definition Series := list cell.

Definition cell_eq_dec : forall a b : cell, {a = b} + {a <> b}.
Proof.
  decide equality; try apply Z.eq_dec; apply string_dec.
Defined.

(** [Series.isna] on one cell *)
Definition isna (c : cell) : bool :=
  match c with NaN => true | _ => false end.

(** [str(x)] of a cell, as [astype(str)] applies it *)
Definition to_str (c : cell) : string :=
  match c with
  | NaN => "nan"
  | Str s => s
  | Int z => str_of_Z z
  | Flt z => str_of_Z z ++ ".0"
  end.

Definition dropna (s : Series) : Series := filter (fun c => negb (isna c)) s.
Definition astype_str (s : Series) : list string := map to_str s.
Definition str_strip (l : list string) : list string := map strip l.
Definition str_lower (l : list string) : list string := map lower l.
Definition of_strs (l : list string) : Series := map Str l.

(** [Series.unique]: the distinct values, in order of first appearance *)
Fixpoint unique (l : list string) : list string :=
  match l with
  | [] => []
  | x :: r => x :: filter (fun y => negb (String.eqb y x)) (unique r)
  end.

Record DataFrame : Type := mkDF {
  index : nat;                          (* number of rows *)
  columns : list (string * Series)      (* named columns, in order *)
}.

Definition names (df : DataFrame) : list string := map fst (columns df).

Fixpoint assoc_get (k : string) (l : list (string * Series)) : option Series :=
  match l with
  | [] => None
  | (k', v) :: r => if String.eqb k k' then Some v else assoc_get k r
  end.

Fixpoint assoc_set (k : string) (v : Series) (l : list (string * Series))
  : list (string * Series) :=
  match l with
  | [] => [(k, v)]
  | (k', v') :: r =>
      if String.eqb k k' then (k, v) :: r else (k', v') :: assoc_set k v r
  end.

(** [df[col]]; [None] is [KeyError] *)
Definition getitem (df : DataFrame) (col : string) : option Series :=
  assoc_get col (columns df).

(** [df[col] = s]: replaces the column, or appends it as the last one *)
Definition setitem (df : DataFrame) (col : string) (s : Series) : DataFrame :=
  mkDF (index df) (assoc_set col s (columns df)).

(** The raw value of field [col] in record [i] *)
Definition cell_at (df : DataFrame) (col : string) (i : nat) : option cell :=
  match getitem df col with
  | Some s => nth_error s i
  | None => None
  end.

(** A frame as the readers build it: every column has one cell per row and
    no two columns share a name. *)
Definition well_formed (df : DataFrame) : Prop :=
  NoDup (names df) /\
  Forall (fun c => List.length (snd c) = index df) (columns df).

(** ** process_uploaded_data: the value (yes/no) columns *)

Definition boolean_vocab : list string :=
  ["yes"; "no"; "y"; "n"; "1"; "0"; "true"; "false"].

(** [df[col].dropna().astype(str).str.strip().str.lower().unique()] *)
Definition unique_vals (s : Series) : list string :=
  unique (str_lower (str_strip (astype_str (dropna s)))).

(** [all(val in [...] for val in unique_vals)] *)
Definition is_value_column (s : Series) : bool :=
  forallb (fun val => py_in val boolean_vocab) (unique_vals s).

Definition identify_value_columns (df : DataFrame) : list string :=
  filter (fun col =>
            match getitem df col with
            | Some s => is_value_column s
            | None => false
            end)
         (names df).



(** ** process_data *)

Definition yes_vocab : list string := ["yes"; "y"; "1"; "true"].

(** [lambda x: 'Yes' if x in ['yes', 'y', '1', 'true'] else 'No'] *)
Definition yes_no (c : cell) : cell :=
  match c with
  | Str x => if py_in x yes_vocab then Str "Yes" else Str "No"
  | _ => Str "No"
  end.

(** [.astype(str).str.strip().str.lower()] *)
Definition clean (s : Series) : Series :=
  of_strs (str_lower (str_strip (astype_str s))).

(** The loop [for col in value_columns] *)
Fixpoint normalize_columns (df : DataFrame) (value_columns : list string)
  : option DataFrame :=
  match value_columns with
  | [] => Some df
  | col :: rest =>
      match getitem df col with
      | None => None
      | Some s =>
          let df1 := setitem df col (clean s) in
          let df2 := setitem df1 col (map yes_no (clean s)) in
          normalize_columns df2 rest
      end
  end.

(** [df[value_columns]] *)
Fixpoint select_columns (df : DataFrame) (cols : list string)
  : option (list Series) :=
  match cols with
  | [] => Some []
  | col :: rest =>
      match getitem df col, select_columns df rest with
      | Some s, Some ss => Some (s :: ss)
      | _, _ => None
      end
  end.

(** [x.map({'Yes': 1, 'No': 0})] on one cell; [None] is NaN *)
Definition score_map (c : cell) : option Z :=
  match c with
  | Str x => if String.eqb x "Yes" then Some 1
             else if String.eqb x "No" then Some 0 else None
  | _ => None
  end.

Definition fillna0 (o : option Z) : Z :=
  match o with Some z => z | None => 0 end.

Definition Zsum (l : list Z) : Z := fold_right Z.add 0 l.

(** [.sum(axis=1)]: per row, the sum over the columns, NaN skipped *)
Definition sum_axis1 (n : nat) (cols : list (list (option Z))) : list Z :=
  map (fun i => Zsum (map (fun col => fillna0 (nth i col None)) cols))
      (seq 0 n).

(** The dtype of that sum: int64 over int64 columns, float64 when there is
    no column to add. *)
Definition sum_dtype {A : Type} (cols : list A) : Z -> cell :=
  match cols with [] => Flt | _ => Int end.

(** The number a numeric cell holds *)
Definition num_value (c : cell) : option Z :=
  match c with Int z | Flt z => Some z | _ => None end.

Definition engagement_map : list (string * Z) :=
  [("Untouched", 0); ("Freemium", 1); ("Da-direct", 2);
   ("Orders 360 lite", 3); ("Orders 360 full", 4)].

Fixpoint dict_get (k : string) (d : list (string * Z)) : option Z :=
  match d with
  | [] => None
  | (k', v) :: r => if String.eqb k k' then Some v else dict_get k r
  end.

(** The loop that picks [stage_col] *)
Definition is_stage_name (col : string) : bool :=
  (contains "stage" (lower col) || contains "subscription" (lower col))%bool.

Definition find_stage_col (cols : list string) : option string :=
  find is_stage_name cols.

(** [max_score * 0.65] *)
Definition value_threshold (max_score : nat) : Q :=
  inject_Z (Z.of_nat max_score) * (65 # 100).

Definition engagement_threshold : Q := 2 # 1.

(** [x >= t] and [x < t] for an integral [x] *)
Definition ge_num (t : Q) (x : Z) : bool := Qle_bool t (inject_Z x).
Definition lt_num (t : Q) (x : Z) : bool :=
  (Qnum (inject_Z x) * QDen t <? Qnum t * QDen (inject_Z x)).

Fixpoint map2 {A B C : Type} (f : A -> B -> C) (l : list A) (l' : list B)
  : list C :=
  match l, l' with
  | a :: r, b :: r' => f a b :: map2 f r r'
  | _, _ => []
  end.

(** The four boolean Series of [conditions] *)
Definition conditions (max_score : nat) (value_score engagement : list Z)
  : list (list bool) :=
  let vt := value_threshold max_score in
  let et := engagement_threshold in
  [ map2 andb (map (ge_num vt) value_score) (map (ge_num et) engagement);
    map2 andb (map (lt_num vt) value_score) (map (ge_num et) engagement);
    map2 andb (map (ge_num vt) value_score) (map (lt_num et) engagement);
    map2 andb (map (lt_num vt) value_score) (map (lt_num et) engagement) ].

Definition quadrants : list string :=
  ["Strategic Partners"; "Growth Opportunities";
   "High Value Prospects"; "Basic Users"].

(** One row of [np.select]: the choice of the first condition that holds *)
Fixpoint select_row (conds : list bool) (choices : list string)
  (default : string) : string :=
  match conds, choices with
  | c :: cs, q :: qs => if c then q else select_row cs qs default
  | _, _ => default
  end.

(** [np.select(condlist, choicelist, default)] over [n] rows *)
Definition np_select (n : nat) (condlist : list (list bool))
  (choicelist : list string) (default : string) : list string :=
  map (fun i =>
         select_row (map (fun c => nth i c false) condlist) choicelist default)
      (seq 0 n).

(** The stage branch: cleans the stage column in place and returns the
    frame with the engagement levels (before they are stored). *)
Definition engagement_levels (df : DataFrame)
  : option (DataFrame * Series * list Z) :=
  match find_stage_col (names df) with
  | Some stage_col =>
      match getitem df stage_col with
      | None => None
      | Some s =>
          let df1 := setitem df stage_col (clean s) in
          let levels :=
            map (fun c => fillna0 (dict_get (to_str c) engagement_map))
                (clean s) in
          Some (df1, map Flt levels, levels)
      end
  | None => Some (df, repeat (Int 0) (index df), repeat 0 (index df))
  end.

Definition process_data (df : DataFrame) (value_columns : list string)
  : option (DataFrame * nat) :=
  match normalize_columns df value_columns with
  | None => None
  | Some df1 =>
      match select_columns df1 value_columns with
      | None => None
      | Some sel =>
          let value_score := sum_axis1 (index df1) (map (map score_map) sel) in
          let df2 :=
            setitem df1 "Value Score" (map (sum_dtype sel) value_score) in
          let max_score := List.length value_columns in
          match engagement_levels df2 with
          | None => None
          | Some (df3, level_cells, engagement) =>
              let df4 := setitem df3 "Engagement Level" level_cells in
              let quadrant :=
                np_select (index df4)
                          (conditions max_score value_score engagement)
                          quadrants "Unclassified" in
              let df5 := setitem df4 "Quadrant" (of_strs quadrant) in
              let df6 :=
                setitem df5 "Size"
                        (map (fun v => sum_dtype sel (v * 8 + 20)) value_score)
              in
              Some (df6, max_score)
          end
      end
  end.

(** ** handle_upload: what reaches the stores *)



(** The same two comparisons as the interpreter carries them out, in
    binary64: the literal [0.65] is the double [0x1.4cccccccccccdp-1], the
    product is rounded, and the integer score is converted. *)
Definition float_of_nat (n : nat) : float :=
  PrimFloat.of_uint63 (Uint63.of_Z (Z.of_nat n)).

Definition float_threshold (max_score : nat) : float :=
  PrimFloat.mul (float_of_nat max_score) 0x1.4cccccccccccdp-1%float.

Definition float_ge (max_score v : nat) : bool :=
  PrimFloat.leb (float_threshold max_score) (float_of_nat v).

Definition float_lt (max_score v : nat) : bool :=
  PrimFloat.ltb (float_of_nat v) (float_threshold max_score).

(** Whether the binary64 and the exact comparisons agree for every score
    [0..max_score] of every [max_score] up to [bound] *)
Definition thresholds_agree (bound : nat) : bool :=
  forallb
    (fun m =>
       forallb
         (fun v =>
            (Bool.eqb (float_ge m v) (ge_num (value_threshold m) (Z.of_nat v))
             && Bool.eqb (float_lt m v)
                         (lt_num (value_threshold m) (Z.of_nat v)))%bool)
         (seq 0 (S m)))
    (seq 0 (S bound)).

(** One row of [conditions], and the row classifier that [np.select]
    computes from it. *)
Definition conditions_row (max_score : nat) (v e : Z) : list bool :=
  let vt := value_threshold max_score in
  let et := engagement_threshold in
  [ (ge_num vt v && ge_num et e)%bool;
    (lt_num vt v && ge_num et e)%bool;
    (ge_num vt v && lt_num et e)%bool;
    (lt_num vt v && lt_num et e)%bool ].

Definition quadrant_row (max_score : nat) (v e : Z) : string :=
  select_row (conditions_row max_score v e) quadrants "Unclassified".

Definition count_true (l : list bool) : nat :=
  List.length (filter (fun b => b) l).


(** Boolean test of [well_formed] *)
Fixpoint nodupb (l : list string) : bool :=
  match l with
  | [] => true
  | x :: r => (negb (py_in x r) && nodupb r)%bool
  end.

Definition well_formedb (df : DataFrame) : bool :=
  (nodupb (names df)
   && forallb (fun c => Nat.eqb (List.length (snd c)) (index df)) (columns df))%bool.

(** ** Sample data *)

Definition scenario : DataFrame :=
  mkDF 3 [ ("Agency Name", [Str "A1"; Str "A2"; Str "A3"]);
           ("FeatureA", [Str "Yes"; Str "No"; Str "Yes"]);
           ("FeatureB", [Str "Yes"; Str "No"; Str "No"]);
           ("Sales Stage", [Str "Orders 360 full"; Str "Untouched";
                            Str "Freemium"]) ].

(** ** The columns of the result, column by column

    What [process_data] leaves under each name, written from the input
    frame.  [process_data_columns] below proves that the code computes
    exactly these. *)

(** The column names after [df[k] = v] *)
Definition add_name (k : string) (l : list string) : list string :=
  if py_in k l then l else (l ++ [k])%list.

Definition clean_cell (c : cell) : cell := Str (lower (strip (to_str c))).

Definition normalize (s : Series) : Series := map yes_no (clean s).

(** Column [c] after the normalising loop *)
Definition normalized (df : DataFrame) (vc : list string) (c : string)
  : option Series :=
  if py_in c vc then option_map normalize (getitem df c) else getitem df c.

Definition value_series (df : DataFrame) (vc : list string) (c : string)
  : Series :=
  match normalized df vc c with Some s => s | None => [] end.

Definition value_scores (df : DataFrame) (vc : list string) : list Z :=
  sum_axis1 (index df) (map (fun c => map score_map (value_series df vc c)) vc).

(** The stage column and its cleaned cells *)
Definition stage_series (df : DataFrame) (vc : list string)
  : option (string * Series) :=
  match find_stage_col (names df) with
  | Some sc =>
      match normalized df vc sc with
      | Some s => Some (sc, clean s)
      | None => None
      end
  | None => None
  end.

Definition level_of (c : cell) : Z :=
  fillna0 (dict_get (to_str c) engagement_map).

Definition engagement (df : DataFrame) (vc : list string) : list Z :=
  match stage_series df vc with
  | Some (_, cs) => map level_of cs
  | None => repeat 0 (index df)
  end.

Definition level_cells (df : DataFrame) (vc : list string) : Series :=
  match stage_series df vc with
  | Some (_, cs) => map Flt (map level_of cs)
  | None => repeat (Int 0) (index df)
  end.

Definition quadrant_series (df : DataFrame) (vc : list string) : Series :=
  of_strs (np_select (index df)
             (conditions (List.length vc) (value_scores df vc) (engagement df vc))
             quadrants "Unclassified").

Definition out_col (df : DataFrame) (vc : list string) (c : string)
  : option Series :=
  if String.eqb c "Size" then
    Some (map (fun v => sum_dtype vc (v * 8 + 20)) (value_scores df vc))
  else if String.eqb c "Quadrant" then Some (quadrant_series df vc)
  else if String.eqb c "Engagement Level" then Some (level_cells df vc)
  else if match stage_series df vc with
          | Some (sc, _) => String.eqb c sc
          | None => false
          end
       then option_map snd (stage_series df vc)
  else if String.eqb c "Value Score" then
    Some (map (sum_dtype vc) (value_scores df vc))
  else normalized df vc c.

Definition out_names (df : DataFrame) : list string :=
  add_name "Size" (add_name "Quadrant" (add_name "Engagement Level"
    (add_name "Value Score" (names df)))).

(** The names [process_data] writes its derived columns under *)
Definition derived_names : list string :=
  ["Value Score"; "Engagement Level"; "Quadrant"; "Size"].

(** [x in ['yes', 'y', '1', 'true']] for the cleaned text of a raw cell *)
Definition is_yes (c : cell) : bool :=
  py_in (lower (strip (to_str c))) yes_vocab.

(** How many of the fields [vc] of record [i] hold a yes *)
Definition yes_count (df : DataFrame) (vc : list string) (i : nat) : nat :=
  List.length
    (filter (fun col =>
               match cell_at df col i with
               | Some c => is_yes c
               | None => false
               end) vc).

(** ** update_visualization: columns, filters, quadrant zones

    The frame is the one [pd.read_json] rebuilds from the store.  Plot
    coordinates are exact rationals, as the thresholds are. *)

(** [next((col for col in df.columns if p(col)), default)] *)
Definition next_col (p : string -> bool) (cols : list string)
  (default : string) : string :=
  match find p cols with Some col => col | None => default end.





Definition stage_col (df : DataFrame) : string :=
  next_col is_stage_name (names df) "Sales Stage (Subscription)".







Definition quadrant_colors : list (string * string) :=
  [("Strategic Partners", "#4C72B0"); ("Growth Opportunities", "#55A868");
   ("High Value Prospects", "#FFA07A"); ("Basic Users", "#C44E52");
   ("Unclassified", "#777777")].

(** [quadrant_colors[label]]; [None] is [KeyError] *)
Fixpoint color_lookup (label : string) (d : list (string * string))
  : option string :=
  match d with
  | [] => None
  | (k, v) :: r => if String.eqb label k then Some v else color_lookup label r
  end.

Definition color_of (label : string) : option string :=
  color_lookup label quadrant_colors.

Record shape : Type := mkShape {
  shape_type : string;
  x0 : Q; y0 : Q; x1 : Q; y1 : Q;
  fillcolor : option string
}.

Record annotation : Type := mkAnnotation {
  ann_x : Q; ann_y : Q;
  ann_text : string;
  ann_color : option string
}.

(** The quadrant backgrounds, in the order they are added *)
Definition zone_shapes (show_quadrants : list string) (max_score : nat)
  : list shape :=
  if (py_in "show" show_quadrants && Nat.ltb 0 max_score)%bool then
    let value_threshold := value_threshold max_score in
    let engagement_threshold := engagement_threshold in
    let top := 45 # 10 in
    let right := inject_Z (Z.of_nat max_score) in
    [ mkShape "rect" value_threshold engagement_threshold right top
              (color_of "Strategic Partners");
      mkShape "rect" 0 engagement_threshold value_threshold top
              (color_of "Growth Opportunities");
      mkShape "rect" value_threshold 0 right engagement_threshold
              (color_of "High Value Prospects");
      mkShape "rect" 0 0 value_threshold engagement_threshold
              (color_of "Basic Users") ]
  else [].

(** The two dashed boundary lines *)
Definition boundary_shapes (max_score : nat) : list shape :=
  if Nat.ltb 0 max_score then
    let value_threshold := value_threshold max_score in
    let engagement_threshold := engagement_threshold in
    let right := inject_Z (Z.of_nat max_score) in
    [ mkShape "line" value_threshold 0 value_threshold (45 # 10) None;
      mkShape "line" 0 engagement_threshold right engagement_threshold None ]
  else [].

(** The four quadrant labels *)
Definition quadrant_annotations (max_score : nat) : list annotation :=
  if Nat.ltb 0 max_score then
    let value_threshold := value_threshold max_score in
    let engagement_threshold := engagement_threshold in
    let right := inject_Z (Z.of_nat max_score) in
    [ mkAnnotation (value_threshold + (right - value_threshold) / (2 # 1))
                   (engagement_threshold
                    + ((45 # 10) - engagement_threshold) / (2 # 1))
                   "Strategic Partners" (color_of "Strategic Partners");
      mkAnnotation (value_threshold / (2 # 1))
                   (engagement_threshold
                    + ((45 # 10) - engagement_threshold) / (2 # 1))
                   "Growth Opportunities" (color_of "Growth Opportunities");
      mkAnnotation (value_threshold + (right - value_threshold) / (2 # 1))
                   (engagement_threshold / (2 # 1))
                   "High Value Prospects" (color_of "High Value Prospects");
      mkAnnotation (value_threshold / (2 # 1))
                   (engagement_threshold / (2 # 1))
                   "Basic Users" (color_of "Basic Users") ]
  else [].

(** A point on or inside a rectangle, and strictly inside it *)
Definition inside (z : shape) (x y : Q) : Prop :=
  (x0 z <= x)%Q /\ (x <= x1 z)%Q /\ (y0 z <= y)%Q /\ (y <= y1 z)%Q.

Definition strictly_inside (z : shape) (x y : Q) : Prop :=
  (x0 z < x)%Q /\ (x < x1 z)%Q /\ (y0 z < y)%Q /\ (y < y1 z)%Q.

(** ** The two command-line tools

    What a run does to the outside is recorded in its result: the chunks
    written to stdout and stderr, the exit status, and (for the scraper)
    the URLs requested and the files written.  File system, network, the
    Excel reader and writer and the HTML parser are arguments. *)




(** *** extract_zip_codes.py *)






(** *** scrape_zipdata.py *)

















(** * Properties *)

(** ** Strings *)

Section StringFacts.

Ltac all_chars c := destruct c as [[] [] [] [] [] [] [] []]; reflexivity.

Lemma lower_char_not_upper (c : ascii) : is_upper (lower_char c) = false.
Proof. all_chars c. Qed.

Lemma lower_char_idem (c : ascii) : lower_char (lower_char c) = lower_char c.
Proof. all_chars c. Qed.

Lemma isspace_lower_char (c : ascii) : isspace (lower_char c) = isspace c.
Proof. all_chars c. Qed.

Lemma lower_has_no_upper (s : string) : has_upper (lower s) = false.
Proof.
  induction s as [|c r IH]; simpl; [reflexivity|].
  now rewrite lower_char_not_upper, IH.
Qed.

Lemma lower_idem (s : string) : lower (lower s) = lower s.
Proof.
  induction s as [|c r IH]; simpl; [reflexivity|].
  now rewrite lower_char_idem, IH.
Qed.

Lemma lstrip_lower (s : string) : lstrip (lower s) = lower (lstrip s).
Proof.
  induction s as [|c r IH]; simpl; [reflexivity|].
  rewrite isspace_lower_char. destruct (isspace c); [exact IH | reflexivity].
Qed.

Lemma rstrip_lower (s : string) : rstrip (lower s) = lower (rstrip s).
Proof.
  induction s as [|c r IH]; simpl; [reflexivity|].
  rewrite IH, isspace_lower_char.
  destruct (rstrip r); simpl; [destruct (isspace c)|]; reflexivity.
Qed.

Lemma strip_lower (s : string) : strip (lower s) = lower (strip s).
Proof. unfold strip. now rewrite rstrip_lower, lstrip_lower. Qed.

Lemma lstrip_idem (s : string) : lstrip (lstrip s) = lstrip s.
Proof.
  induction s as [|c r IH]; simpl; [reflexivity|].
  destruct (isspace c) eqn:E; [exact IH | simpl; now rewrite E].
Qed.

Lemma rstrip_idem (s : string) : rstrip (rstrip s) = rstrip s.
Proof.
  induction s as [|c r IH]; simpl; [reflexivity|].
  destruct (rstrip r) as [|d r'] eqn:E.
  - destruct (isspace c) eqn:Ec; simpl; [reflexivity | now rewrite Ec].
  - change (rstrip (String c (String d r'))) with
      (match rstrip (String d r') with
       | EmptyString =>
           if isspace c then EmptyString else String c EmptyString
       | x => String c x
       end).
    now rewrite IH.
Qed.

Lemma rstrip_lstrip (s : string) : rstrip (lstrip s) = lstrip (rstrip s).
Proof.
  induction s as [|c r IH]; [reflexivity|].
  cbn [lstrip rstrip].
  destruct (isspace c) eqn:Ec.
  - rewrite IH. destruct (rstrip r) as [|d r'] eqn:E; [reflexivity|].
    cbn [lstrip]. now rewrite Ec.
  - cbn [rstrip].
    destruct (rstrip r) as [|d r'] eqn:E; rewrite ?Ec; cbn [lstrip];
      now rewrite Ec.
Qed.

Lemma strip_idem (s : string) : strip (strip s) = strip s.
Proof.
  unfold strip. now rewrite rstrip_lstrip, rstrip_idem, lstrip_idem.
Qed.

(** Cleaning a text twice is cleaning it once. *)
Lemma lower_strip_idem (s : string) :
  lower (strip (lower (strip s))) = lower (strip s).
Proof. now rewrite strip_lower, strip_idem, lower_idem. Qed.

Lemma py_in_In (x : string) (l : list string) :
  py_in x l = true <-> In x l.
Proof.
  unfold py_in. rewrite existsb_exists. split.
  - intros (y & Hy & E). apply String.eqb_eq in E. now subst.
  - intros H. exists x. split; [assumption | apply String.eqb_refl].
Qed.

Lemma unique_In (x : string) (l : list string) : In x (unique l) <-> In x l.
Proof.
  induction l as [|y r IH]; simpl; [tauto|].
  rewrite filter_In, IH, negb_true_iff, String.eqb_neq.
  destruct (string_dec y x) as [->|N]; [tauto|].
  split; [tauto|]. intros [E|H]; [now left | right; split; congruence].
Qed.

End StringFacts.

(** ** Frames: reading and writing columns *)

Section FrameFacts.

Lemma assoc_get_set (k k' : string) (v : Series) (l : list (string * Series)) :
  assoc_get k (assoc_set k' v l) =
  if String.eqb k k' then Some v else assoc_get k l.
Proof.
  induction l as [|[k0 v0] r IH]; simpl.
  - destruct (String.eqb k k'); reflexivity.
  - destruct (String.eqb k' k0) eqn:E0; simpl.
    + apply String.eqb_eq in E0. subst k0.
      destruct (String.eqb k k'); reflexivity.
    + destruct (String.eqb k k0) eqn:E1; [|exact IH].
      apply String.eqb_eq in E1. subst k0.
      rewrite String.eqb_sym, E0. reflexivity.
Qed.

Lemma getitem_setitem (df : DataFrame) (k k' : string) (v : Series) :
  getitem (setitem df k' v) k =
  if String.eqb k k' then Some v else getitem df k.
Proof. apply assoc_get_set. Qed.

Lemma assoc_get_In (k : string) (l : list (string * Series)) :
  In k (map fst l) <-> exists s, assoc_get k l = Some s.
Proof.
  induction l as [|[k0 v0] r IH]; simpl.
  - split; [tauto | intros [s H]; discriminate].
  - destruct (String.eqb k k0) eqn:E.
    + apply String.eqb_eq in E. subst. split; [eauto | auto].
    + apply String.eqb_neq in E. rewrite <- IH.
      split; [intros [H|H]; congruence || assumption | auto].
Qed.

Lemma getitem_In (df : DataFrame) (k : string) :
  In k (names df) <-> exists s, getitem df k = Some s.
Proof. apply assoc_get_In. Qed.

Lemma assoc_set_names_in (k : string) (v : Series) l :
  In k (map fst l) -> map fst (assoc_set k v l) = map fst l.
Proof.
  induction l as [|[k0 v0] r IH]; simpl; [tauto|].
  intros H. destruct (String.eqb k k0) eqn:E; simpl.
  - apply String.eqb_eq in E. now subst.
  - apply String.eqb_neq in E. f_equal. apply IH.
    destruct H; congruence.
Qed.

Lemma assoc_set_names_new (k : string) (v : Series) l :
  ~ In k (map fst l) -> map fst (assoc_set k v l) = (map fst l ++ [k])%list.
Proof.
  induction l as [|[k0 v0] r IH]; simpl; [reflexivity|].
  intros H. destruct (String.eqb k k0) eqn:E; simpl.
  - apply String.eqb_eq in E. subst. tauto.
  - f_equal. apply IH. tauto.
Qed.

Lemma names_setitem (df : DataFrame) (k : string) (v : Series) :
  names (setitem df k v) = add_name k (names df).
Proof.
  unfold names, setitem, add_name. simpl.
  destruct (py_in k (map fst (columns df))) eqn:E.
  - apply assoc_set_names_in. now apply py_in_In.
  - apply assoc_set_names_new. rewrite <- py_in_In. congruence.
Qed.

Lemma add_name_incl (k : string) (l : list string) : incl l (add_name k l).
Proof.
  unfold add_name. destruct (py_in k l); [apply incl_refl|].
  apply incl_appl, incl_refl.
Qed.

Lemma add_name_NoDup (k : string) (l : list string) :
  NoDup l -> NoDup (add_name k l).
Proof.
  unfold add_name. intros H. destruct (py_in k l) eqn:E; [assumption|].
  apply NoDup_app; [assumption | repeat constructor; simpl; tauto |].
  intros x Hx [<-|[]]. apply py_in_In in Hx. congruence.
Qed.

Lemma assoc_set_Forall (P : string * Series -> Prop) k v l :
  P (k, v) -> Forall P l -> Forall P (assoc_set k v l).
Proof.
  intros Hk. induction 1 as [|[k0 v0] r H0 Hr IH]; simpl.
  - repeat constructor; assumption.
  - destruct (String.eqb k k0); constructor; assumption.
Qed.

Lemma well_formed_setitem (df : DataFrame) (k : string) (v : Series) :
  well_formed df -> List.length v = index df ->
  well_formed (setitem df k v).
Proof.
  intros [Hn Hl] Hv. split.
  - rewrite names_setitem. now apply add_name_NoDup.
  - simpl. now apply assoc_set_Forall.
Qed.

Lemma assoc_get_length (n : nat) k l s :
  Forall (fun c : string * Series => List.length (snd c) = n) l ->
  assoc_get k l = Some s -> List.length s = n.
Proof.
  induction 1 as [|[k0 v0] r H0 Hr IH]; simpl; [discriminate|].
  destruct (String.eqb k k0); [|exact IH].
  intros [= <-]. exact H0.
Qed.

Lemma getitem_length (df : DataFrame) k s :
  well_formed df -> getitem df k = Some s -> List.length s = index df.
Proof. intros [_ Hl]. now apply assoc_get_length. Qed.

(** Two association lists with the same keys, all distinct, and the same
    value under every key are the same list. *)
Lemma assoc_ext (l l' : list (string * Series)) :
  map fst l = map fst l' -> NoDup (map fst l) ->
  (forall k, assoc_get k l = assoc_get k l') -> l = l'.
Proof.
  revert l'. induction l as [|[k v] r IH]; intros [|[k' v'] r']; simpl;
    try discriminate; [reflexivity|].
  intros [= <- Hr] Hnd Hget. inversion Hnd as [|? ? Hk Hnd']; subst.
  pose proof (Hget k) as H0. rewrite String.eqb_refl in H0.
  injection H0 as <-. f_equal. apply IH; [assumption..|].
  intros k0. specialize (Hget k0).
  destruct (String.eqb k0 k) eqn:E; [|assumption].
  apply String.eqb_eq in E. subst k0.
  assert (N : assoc_get k r = None).
  { destruct (assoc_get k r) eqn:G; [|reflexivity].
    exfalso. apply Hk. apply assoc_get_In. eauto. }
  assert (N' : assoc_get k r' = None).
  { destruct (assoc_get k r') eqn:G; [|reflexivity].
    exfalso. apply Hk. rewrite Hr. apply assoc_get_In. eauto. }
  congruence.
Qed.

Lemma frame_ext (df df' : DataFrame) :
  index df = index df' -> names df = names df' -> NoDup (names df) ->
  (forall k, getitem df k = getitem df' k) -> df = df'.
Proof.
  destruct df as [n l], df' as [n' l']. unfold names, getitem. simpl.
  intros -> Hn Hd Hg. f_equal. now apply assoc_ext.
Qed.

End FrameFacts.

(** ** The normalising loop and the derived columns *)

Section Columns.

Lemma clean_map (s : Series) : clean s = map clean_cell s.
Proof.
  unfold clean, of_strs, str_lower, str_strip, astype_str.
  now rewrite !map_map.
Qed.

Lemma clean_idem (s : Series) : clean (clean s) = clean s.
Proof.
  rewrite !clean_map, map_map. apply map_ext. intros c.
  unfold clean_cell. simpl. now rewrite lower_strip_idem.
Qed.

Lemma normalize_map (s : Series) :
  normalize s = map (fun c => yes_no (clean_cell c)) s.
Proof. unfold normalize. now rewrite clean_map, map_map. Qed.

Lemma yes_no_cases (c : cell) :
  yes_no (clean_cell c) = Str (if is_yes c then "Yes" else "No").
Proof.
  unfold clean_cell, is_yes, yes_no.
  now destruct (py_in (lower (strip (to_str c))) yes_vocab).
Qed.

Lemma normalize_idem (s : Series) : normalize (normalize s) = normalize s.
Proof.
  rewrite !normalize_map, map_map. apply map_ext. intros c.
  rewrite (yes_no_cases c). destruct (is_yes c); reflexivity.
Qed.

Lemma normalize_clean (s : Series) : normalize (clean s) = normalize s.
Proof. unfold normalize. now rewrite clean_idem. Qed.

(** A column of yes/no cells survives a cleaning followed by a second
    normalisation. *)
Lemma normalize_clean_normalize (s : Series) :
  normalize (clean (normalize s)) = normalize s.
Proof. now rewrite normalize_clean, normalize_idem. Qed.

Lemma length_clean (s : Series) : List.length (clean s) = List.length s.
Proof. rewrite clean_map. apply length_map. Qed.

Lemma length_normalize (s : Series) :
  List.length (normalize s) = List.length s.
Proof. rewrite normalize_map. apply length_map. Qed.

Lemma add_name_same (k : string) (l : list string) :
  In k l -> add_name k l = l.
Proof. intros H. unfold add_name. apply py_in_In in H. now rewrite H. Qed.

Lemma normalize_columns_ok (vc : list string) : forall df,
  incl vc (names df) ->
  exists df1, normalize_columns df vc = Some df1 /\
              index df1 = index df /\ names df1 = names df /\
              forall c, getitem df1 c = normalized df vc c.
Proof.
  induction vc as [|col rest IH]; intros df Hin.
  - exists df. repeat split; reflexivity.
  - assert (Hcol : In col (names df)) by (apply Hin; now left).
    destruct (proj1 (getitem_In df col) Hcol) as [s Hs].
    cbn [normalize_columns]. rewrite Hs.
    set (df2 := setitem (setitem df col (clean s)) col
                        (map yes_no (clean s))).
    assert (Hn2 : names df2 = names df).
    { unfold df2. rewrite !names_setitem.
      now rewrite !add_name_same by (rewrite ?add_name_same; assumption). }
    destruct (IH df2) as (df1 & H1 & Hi & Hn & Hg).
    { rewrite Hn2. intros x Hx. apply Hin. now right. }
    exists df1. split; [exact H1|]. split; [exact Hi|].
    split; [now rewrite Hn|].
    intros c. rewrite Hg. unfold normalized.
    unfold df2 at 1 2. rewrite !getitem_setitem.
    change (py_in c (col :: rest))
      with (String.eqb c col || py_in c rest)%bool.
    destruct (String.eqb c col) eqn:E; simpl.
    + apply String.eqb_eq in E. subst c. rewrite Hs. simpl.
      fold (normalize s).
      destruct (py_in col rest); [now rewrite normalize_idem | reflexivity].
    + reflexivity.
Qed.

Lemma select_columns_ok (df : DataFrame) (g : string -> Series) :
  forall cols, (forall c, In c cols -> getitem df c = Some (g c)) ->
               select_columns df cols = Some (map g cols).
Proof.
  induction cols as [|c r IH]; intros H; [reflexivity|].
  simpl. rewrite (H c) by now left.
  rewrite IH; [reflexivity|]. intros c' Hc'. apply H. now right.
Qed.

Lemma find_add_name (f : string -> bool) (k : string) (l : list string) :
  f k = false -> find f (add_name k l) = find f l.
Proof.
  intros Hk. unfold add_name. destruct (py_in k l); [reflexivity|].
  induction l as [|x r IH]; simpl; [now rewrite Hk|].
  destruct (f x); [reflexivity | exact IH].
Qed.

Lemma stage_not_derived (sc : string) :
  is_stage_name sc = true -> ~ In sc derived_names.
Proof.
  intros H [<-|[<-|[<-|[<-|[]]]]]; vm_compute in H; discriminate.
Qed.

Lemma find_stage_col_out (df : DataFrame) :
  find_stage_col (out_names df) = find_stage_col (names df).
Proof.
  unfold out_names, find_stage_col.
  now rewrite !find_add_name by reflexivity.
Qed.

Lemma eqb_of_neq (a b : string) : a <> b -> String.eqb a b = false.
Proof. apply String.eqb_neq. Qed.

Lemma normalized_Some (df : DataFrame) (vc : list string) (c : string) :
  In c (names df) -> exists s, normalized df vc c = Some s.
Proof.
  intros H. apply getitem_In in H as [s Hs]. unfold normalized. rewrite Hs.
  destruct (py_in c vc); simpl; eauto.
Qed.

(** [process_data] returns, and what it returns is described column by
    column by [out_col]. *)
Lemma process_data_columns (df : DataFrame) (vc : list string) :
  incl vc (names df) ->
  exists out, process_data df vc = Some (out, List.length vc) /\
              index out = index df /\ names out = out_names df /\
              forall c, getitem out c = out_col df vc c.
Proof.
  intros Hin.
  destruct (normalize_columns_ok vc df Hin) as (df1 & H1 & Hi1 & Hn1 & Hg1).
  unfold process_data. rewrite H1.
  rewrite (select_columns_ok df1 (value_series df vc)).
  2:{ intros c Hc. rewrite Hg1. unfold value_series.
      destruct (normalized_Some df vc c (Hin c Hc)) as [s ->]. reflexivity. }
  rewrite map_map, Hi1. fold (value_scores df vc).
  assert (Hd : forall z, sum_dtype (map (value_series df vc) vc) z
                         = sum_dtype vc z) by (now destruct vc).
  set (df2 := setitem df1 "Value Score" _).
  assert (Hn2 : names df2 = add_name "Value Score" (names df)).
  { unfold df2. now rewrite names_setitem, Hn1. }
  unfold engagement_levels. rewrite Hn2.
  unfold find_stage_col at 1. rewrite find_add_name by reflexivity.
  fold (find_stage_col (names df)).
  unfold out_col, quadrant_series, level_cells, engagement, stage_series,
    out_names.
  destruct (find_stage_col (names df)) as [sc|] eqn:Hsc.
  - pose proof (find_some _ _ Hsc) as [Hsc_in Hsc_st].
    pose proof (stage_not_derived sc Hsc_st) as Hnd.
    assert (Hvs : sc <> "Value Score")
      by (intros E; apply Hnd; left; now rewrite E).
    assert (Hg2 : getitem df2 sc = normalized df vc sc).
    { unfold df2. rewrite getitem_setitem, eqb_of_neq by exact Hvs.
      apply Hg1. }
    rewrite Hg2.
    destruct (normalized_Some df vc sc Hsc_in) as [s Hs]. rewrite Hs.
    eexists. split; [reflexivity|]. split; [exact Hi1|]. split.
    + rewrite !names_setitem, Hn2.
      rewrite (add_name_same sc); [reflexivity|].
      apply add_name_incl. assumption.
    + intros c. rewrite !getitem_setitem. cbn [index setitem df2 snd].
      rewrite Hi1. fold level_of.
      destruct (String.eqb c "Size");
        [f_equal; apply map_ext; intros; apply Hd|].
      destruct (String.eqb c "Quadrant"); [reflexivity|].
      destruct (String.eqb c "Engagement Level"); [reflexivity|].
      destruct (String.eqb c sc); [reflexivity|].
      unfold df2. rewrite getitem_setitem.
      destruct (String.eqb c "Value Score");
        [f_equal; apply map_ext; intros; apply Hd | apply Hg1].
  - eexists. split; [reflexivity|]. split; [exact Hi1|]. split.
    + now rewrite !names_setitem, Hn2.
    + intros c. rewrite !getitem_setitem. cbn [index setitem df2].
      rewrite Hi1.
      destruct (String.eqb c "Size");
        [f_equal; apply map_ext; intros; apply Hd|].
      destruct (String.eqb c "Quadrant"); [reflexivity|].
      destruct (String.eqb c "Engagement Level"); [reflexivity|].
      unfold df2. rewrite getitem_setitem.
      destruct (String.eqb c "Value Score");
        [f_equal; apply map_ext; intros; apply Hd | apply Hg1].
Qed.

End Columns.

(** ** Row by row *)

Section Rows.

Lemma nth_error_map_seq {A : Type} (f : nat -> A) (n i : nat) :
  (i < n)%nat -> nth_error (map f (seq 0 n)) i = Some (f i).
Proof.
  intros H. rewrite nth_error_map, nth_error_seq.
  apply Nat.ltb_lt in H. now rewrite H.
Qed.

Lemma nth_of_nth_error {A : Type} (l : list A) (i : nat) (x d : A) :
  nth_error l i = Some x -> nth i l d = x.
Proof. intros H. now apply nth_error_nth. Qed.

Lemma nth_map2 {A B C : Type} (f : A -> B -> C) (d : C) :
  forall (l : list A) (l' : list B) (i : nat) (a : A) (b : B),
    nth_error l i = Some a -> nth_error l' i = Some b ->
    nth i (map2 f l l') d = f a b.
Proof.
  induction l as [|x r IH]; intros [|y r'] [|i] a b Ha Hb;
    simpl in *; try discriminate.
  - congruence.
  - now apply IH.
Qed.

Lemma length_sum_axis1 (n : nat) cols : List.length (sum_axis1 n cols) = n.
Proof. unfold sum_axis1. now rewrite length_map, length_seq. Qed.

Lemma length_value_scores (df : DataFrame) (vc : list string) :
  List.length (value_scores df vc) = index df.
Proof. apply length_sum_axis1. Qed.

Lemma normalized_length (df : DataFrame) vc c s :
  well_formed df -> normalized df vc c = Some s ->
  List.length s = index df.
Proof.
  intros Hwf. unfold normalized.
  destruct (getitem df c) as [s0|] eqn:G.
  - pose proof (getitem_length df c s0 Hwf G) as L.
    destruct (py_in c vc); simpl; intros [= <-];
      now rewrite ?length_normalize.
  - destruct (py_in c vc); discriminate.
Qed.

Lemma stage_series_inv (df : DataFrame) vc sc cs :
  stage_series df vc = Some (sc, cs) ->
  find_stage_col (names df) = Some sc /\
  exists s, normalized df vc sc = Some s /\ cs = clean s.
Proof.
  unfold stage_series.
  destruct (find_stage_col (names df)) as [sc'|]; [|discriminate].
  destruct (normalized df vc sc') as [s|] eqn:E; [|discriminate].
  intros [= <- <-]. eauto.
Qed.

Lemma stage_series_length (df : DataFrame) vc sc cs :
  well_formed df -> stage_series df vc = Some (sc, cs) ->
  List.length cs = index df.
Proof.
  intros Hwf H. apply stage_series_inv in H as (_ & s & Hs & ->).
  rewrite length_clean. eauto using normalized_length.
Qed.

Lemma length_engagement (df : DataFrame) vc :
  well_formed df -> List.length (engagement df vc) = index df.
Proof.
  intros Hwf. unfold engagement.
  destruct (stage_series df vc) as [[sc cs]|] eqn:E.
  - rewrite length_map. eauto using stage_series_length.
  - apply repeat_length.
Qed.

(** The engagement cells hold the engagement levels. *)
Lemma level_cells_value (df : DataFrame) vc i e :
  nth_error (engagement df vc) i = Some e ->
  exists c, nth_error (level_cells df vc) i = Some c /\
            num_value c = Some e.
Proof.
  unfold engagement, level_cells.
  destruct (stage_series df vc) as [[sc cs]|].
  - intros H. exists (Flt e). split; [|reflexivity].
    rewrite nth_error_map, H. reflexivity.
  - intros H. exists (Int 0). pose proof (nth_error_In _ _ H) as Hin.
    apply repeat_spec in Hin. subst e. split; [|reflexivity].
    apply nth_error_repeat.
    rewrite <- (repeat_length 0 (index df)).
    apply nth_error_Some. congruence.
Qed.

(** One row of the vectorised [np.select] is [quadrant_row]. *)
Lemma np_select_row (n m i : nat) (vs es : list Z) (v e : Z) :
  (i < n)%nat -> nth_error vs i = Some v -> nth_error es i = Some e ->
  nth_error (np_select n (conditions m vs es) quadrants "Unclassified") i
  = Some (quadrant_row m v e).
Proof.
  intros Hi Hv He. unfold np_select. rewrite nth_error_map_seq by assumption.
  unfold conditions, quadrant_row, conditions_row. cbn [map].
  rewrite !(nth_map2 andb false _ _ i _ _
              (map_nth_error _ _ _ Hv) (map_nth_error _ _ _ He)).
  reflexivity.
Qed.

Lemma score_of_normalized (c : cell) :
  fillna0 (score_map (yes_no (clean_cell c))) = if is_yes c then 1 else 0.
Proof. rewrite yes_no_cases. now destruct (is_yes c). Qed.

Lemma value_series_row (df : DataFrame) vc c i :
  well_formed df -> In c vc -> In c (names df) -> (i < index df)%nat ->
  exists x, cell_at df c i = Some x /\
            nth_error (value_series df vc c) i = Some (yes_no (clean_cell x)).
Proof.
  intros Hwf Hc Hn Hi. apply getitem_In in Hn as [s Hs].
  pose proof (getitem_length df c s Hwf Hs) as L.
  destruct (nth_error s i) as [x|] eqn:Hx.
  2:{ apply nth_error_None in Hx. lia. }
  exists x. unfold cell_at, value_series, normalized. rewrite Hs.
  apply py_in_In in Hc. rewrite Hc. cbn [option_map]. split; [assumption|].
  rewrite normalize_map.
  exact (map_nth_error (fun c => yes_no (clean_cell c)) i s Hx).
Qed.

Lemma Zsum_indicator (p : string -> bool) (g : string -> Z) (l : list string) :
  (forall c, In c l -> g c = if p c then 1 else 0) ->
  Zsum (map g l) = Z.of_nat (List.length (filter p l)).
Proof.
  induction l as [|c r IH]; intros H; [reflexivity|].
  cbn [map Zsum fold_right filter]. fold (Zsum (map g r)).
  rewrite IH by (intros; apply H; now right).
  rewrite (H c) by now left.
  destruct (p c); cbn [List.length]; lia.
Qed.

(** Row [i] of the score column counts the yes fields of record [i]. *)
Lemma value_scores_row (df : DataFrame) vc i :
  well_formed df -> incl vc (names df) -> (i < index df)%nat ->
  nth_error (value_scores df vc) i = Some (Z.of_nat (yes_count df vc i)).
Proof.
  intros Hwf Hin Hi. unfold value_scores, sum_axis1.
  rewrite nth_error_map_seq by assumption. f_equal.
  rewrite map_map. unfold yes_count. apply Zsum_indicator.
  intros c Hc.
  destruct (value_series_row df vc c i Hwf Hc (Hin c Hc) Hi)
    as (x & Hx & Hv).
  rewrite Hx.
  rewrite (nth_of_nth_error _ i _ None
             (map_nth_error score_map _ _ Hv)).
  apply score_of_normalized.
Qed.

Lemma yes_count_le (df : DataFrame) vc i :
  (yes_count df vc i <= List.length vc)%nat.
Proof. apply filter_length_le. Qed.

(** No cleaned cell is a key of [engagement_map]: the keys carry a
    capital, the cleaned text carries none. *)
Lemma dict_get_lower (s : string) : dict_get (lower s) engagement_map = None.
Proof.
  assert (K : forall k, has_upper k = true -> String.eqb (lower s) k = false).
  { intros k Hk. apply String.eqb_neq. intros E.
    rewrite <- E, lower_has_no_upper in Hk. discriminate. }
  unfold engagement_map, dict_get.
  now rewrite !K by reflexivity.
Qed.

Lemma level_of_clean_cell (c : cell) : level_of (clean_cell c) = 0.
Proof.
  unfold level_of, clean_cell. cbn [to_str]. now rewrite dict_get_lower.
Qed.

Lemma map_const_repeat {A B : Type} (f : A -> B) (b : B) (l : list A) :
  (forall a, f a = b) -> map f l = repeat b (List.length l).
Proof.
  intros H. induction l as [|a r IH]; simpl; [reflexivity|].
  now rewrite H, IH.
Qed.

Lemma engagement_zero (df : DataFrame) vc :
  well_formed df -> engagement df vc = repeat 0 (index df).
Proof.
  intros Hwf. unfold engagement.
  destruct (stage_series df vc) as [[sc cs]|] eqn:E; [|reflexivity].
  rewrite <- (stage_series_length df vc sc cs Hwf E).
  apply stage_series_inv in E as (_ & s & _ & ->).
  rewrite clean_map, map_map, length_map.
  apply map_const_repeat, level_of_clean_cell.
Qed.

End Rows.

(** ** Thresholds *)

Section Thresholds.



Lemma lt_num_negb (t : Q) (x : Z) : lt_num t x = negb (ge_num t x).
Proof. unfold lt_num, ge_num, Qle_bool. apply Z.ltb_antisym. Qed.

(** [v >= max_score * 0.65] in integers *)
Lemma ge_value_threshold (m : nat) (v : Z) :
  ge_num (value_threshold m) v = (13 * Z.of_nat m <=? 20 * v).
Proof.
  unfold ge_num, Qle_bool, value_threshold.
  cbn [Qnum Qden Qmult inject_Z].
  apply eq_true_iff_eq. rewrite !Z.leb_le. lia.
Qed.

Lemma ge_engagement_threshold (e : Z) :
  ge_num engagement_threshold e = (2 <=? e).
Proof.
  unfold ge_num, Qle_bool, engagement_threshold.
  cbn [Qnum Qden inject_Z].
  apply eq_true_iff_eq. rewrite !Z.leb_le. lia.
Qed.

(** The exact threshold decides as the binary64 one does, for every
    dataset of up to 120 value columns. *)
Lemma float_thresholds_agree : thresholds_agree 120 = true.
Proof. vm_compute. reflexivity. Qed.

(** The cascade of [np.select] over the four conditions, as a decision
    on the two axes. *)
Lemma quadrant_row_cases (m : nat) (v e : Z) :
  quadrant_row m v e =
  if ge_num (value_threshold m) v
  then if ge_num engagement_threshold e
       then "Strategic Partners" else "High Value Prospects"
  else if ge_num engagement_threshold e
       then "Growth Opportunities" else "Basic Users".
Proof.
  unfold quadrant_row, conditions_row. rewrite !lt_num_negb.
  destruct (ge_num (value_threshold m) v), (ge_num engagement_threshold e);
    reflexivity.
Qed.

Lemma conditions_row_one (m : nat) (v e : Z) :
  count_true (conditions_row m v e) = 1%nat.
Proof.
  unfold conditions_row. rewrite !lt_num_negb.
  destruct (ge_num (value_threshold m) v), (ge_num engagement_threshold e);
    reflexivity.
Qed.


Lemma quadrant_row_primary (m : nat) (v e : Z) :
  In (quadrant_row m v e) quadrants.
Proof.
  rewrite quadrant_row_cases.
  destruct (ge_num _ v), (ge_num _ e); simpl; auto.
Qed.

Lemma nodupb_NoDup (l : list string) : nodupb l = true -> NoDup l.
Proof.
  induction l as [|x r IH]; simpl; [constructor|].
  intros H. apply andb_prop in H as [Hx Hr]. constructor; [|auto].
  rewrite <- py_in_In. now destruct (py_in x r).
Qed.

Lemma well_formedb_ok (df : DataFrame) :
  well_formedb df = true -> well_formed df.
Proof.
  unfold well_formedb, well_formed. intros H.
  apply andb_prop in H as [Hn Hl]. split; [now apply nodupb_NoDup|].
  apply Forall_forall. intros c Hc.
  rewrite forallb_forall in Hl. now apply Nat.eqb_eq, Hl.
Qed.

Lemma identify_value_columns_incl (df : DataFrame) :
  incl (identify_value_columns df) (names df).
Proof. intros c Hc. apply filter_In in Hc. tauto. Qed.

End Thresholds.

(** ** The derived cells of one record *)

Section Records.

Lemma stage_series_not_derived (df : DataFrame) vc sc cs :
  stage_series df vc = Some (sc, cs) -> ~ In sc derived_names.
Proof.
  intros H. apply stage_series_inv in H as [H _].
  apply find_some in H as [_ H]. now apply stage_not_derived.
Qed.

Lemma out_col_value_score (df : DataFrame) vc :
  out_col df vc "Value Score"
  = Some (map (sum_dtype vc) (value_scores df vc)).
Proof.
  unfold out_col.
  change (String.eqb "Value Score" "Size") with false.
  change (String.eqb "Value Score" "Quadrant") with false.
  change (String.eqb "Value Score" "Engagement Level") with false.
  change (String.eqb "Value Score" "Value Score") with true.
  cbv iota.
  destruct (stage_series df vc) as [[sc cs]|] eqn:E; [|reflexivity].
  apply stage_series_not_derived in E.
  rewrite eqb_of_neq; [reflexivity|].
  intros <-. apply E. now left.
Qed.

(** What [process_data] stores for record [i]. *)
Lemma process_data_row (df : DataFrame) (vc : list string) (i : nat) :
  well_formed df -> incl vc (names df) -> (i < index df)%nat ->
  exists out,
    process_data df vc = Some (out, List.length vc) /\
    cell_at out "Value Score" i
    = Some (sum_dtype vc (Z.of_nat (yes_count df vc i))) /\
    (exists ce, cell_at out "Engagement Level" i = Some ce /\
                num_value ce = Some 0) /\
    cell_at out "Quadrant" i
    = Some (Str (quadrant_row (List.length vc)
                              (Z.of_nat (yes_count df vc i)) 0)).
Proof.
  intros Hwf Hin Hi.
  destruct (process_data_columns df vc Hin) as (out & Hp & _ & _ & Hg).
  pose proof (value_scores_row df vc i Hwf Hin Hi) as Hv.
  assert (He : nth_error (engagement df vc) i = Some 0).
  { rewrite engagement_zero by assumption. now apply nth_error_repeat. }
  exists out. split; [exact Hp|]. unfold cell_at. rewrite !Hg.
  rewrite out_col_value_score. repeat split.
  - now apply map_nth_error.
  - apply level_cells_value in He. exact He.
  - unfold out_col, quadrant_series, of_strs.
    cbn [String.eqb Ascii.eqb Bool.eqb].
    apply map_nth_error. now apply np_select_row.
Qed.

End Records.

(** ** Classifying an augmented dataset again *)

Section Again.

Lemma out_col_plain (df : DataFrame) (vc : list string) (c : string) :
  ~ In c derived_names -> find_stage_col (names df) <> Some c ->
  out_col df vc c = normalized df vc c.
Proof.
  intros Hd Hs. unfold out_col. simpl in Hd.
  rewrite !eqb_of_neq by (intros ->; tauto).
  destruct (stage_series df vc) as [[sc cs]|] eqn:E; [|reflexivity].
  apply stage_series_inv in E as [E _].
  rewrite eqb_of_neq; [reflexivity | congruence].
Qed.

Lemma out_col_stage (df : DataFrame) (vc : list string) sc cs :
  stage_series df vc = Some (sc, cs) -> out_col df vc sc = Some cs.
Proof.
  intros E. pose proof (stage_series_not_derived df vc sc cs E) as Hd.
  unfold out_col. simpl in Hd.
  rewrite !eqb_of_neq by (intros ->; tauto).
  rewrite E. cbn [option_map snd]. now rewrite String.eqb_refl.
Qed.

Lemma stage_series_found (df : DataFrame) (vc : list string) sc :
  find_stage_col (names df) = Some sc ->
  exists s, normalized df vc sc = Some s /\
            stage_series df vc = Some (sc, clean s).
Proof.
  intros Hs. pose proof (find_some _ _ Hs) as [Hin _].
  destruct (normalized_Some df vc sc Hin) as [s Hn].
  exists s. split; [exact Hn|]. unfold stage_series. now rewrite Hs, Hn.
Qed.

Lemma option_eq_stage (o : option string) (c : string) :
  {o = Some c} + {o <> Some c}.
Proof. decide equality. apply string_dec. Qed.

Variables (df out : DataFrame) (vc : list string).
Hypothesis Hfresh : forall c, In c vc -> ~ In c derived_names.
Hypothesis Hi : index out = index df.
Hypothesis Hn : names out = out_names df.
Hypothesis Hg : forall c, getitem out c = out_col df vc c.

Lemma normalized_again (c : string) :
  In c vc -> normalized out vc c = normalized df vc c.
Proof.
  intros Hc. pose proof (proj2 (py_in_In c vc) Hc) as Hb.
  unfold normalized at 1. rewrite Hb, Hg.
  destruct (option_eq_stage (find_stage_col (names df)) c) as [Hs|Hs].
  - destruct (stage_series_found df vc c Hs) as (s & Hns & Hss).
    rewrite (out_col_stage df vc c _ Hss). cbn [option_map].
    rewrite Hns. unfold normalized in Hns. rewrite Hb in Hns.
    destruct (getitem df c) as [s0|]; [|discriminate].
    injection Hns as <-. now rewrite normalize_clean_normalize.
  - rewrite out_col_plain by auto. unfold normalized. rewrite Hb.
    destruct (getitem df c) as [s0|]; [|reflexivity].
    cbn [option_map]. now rewrite normalize_idem.
Qed.

Lemma value_scores_again : value_scores out vc = value_scores df vc.
Proof.
  unfold value_scores. rewrite Hi. f_equal. apply map_ext_in.
  intros c Hc. unfold value_series. now rewrite normalized_again.
Qed.

Lemma stage_series_again : stage_series out vc = stage_series df vc.
Proof.
  unfold stage_series at 1. rewrite Hn, find_stage_col_out.
  destruct (find_stage_col (names df)) as [sc|] eqn:Hs.
  2:{ unfold stage_series. now rewrite Hs. }
  destruct (stage_series_found df vc sc Hs) as (s & Hns & Hss).
  rewrite Hss.
  destruct (py_in sc vc) eqn:E.
  - rewrite normalized_again by now apply py_in_In.
    now rewrite Hns.
  - unfold normalized at 1. rewrite E, Hg.
    rewrite (out_col_stage df vc sc _ Hss). now rewrite clean_idem.
Qed.

Lemma out_col_again (k : string) : out_col out vc k = out_col df vc k.
Proof.
  unfold out_col, quadrant_series, level_cells, engagement.
  rewrite stage_series_again, value_scores_again, Hi.
  destruct (String.eqb k "Size") eqn:E1; [reflexivity|].
  destruct (String.eqb k "Quadrant") eqn:E2; [reflexivity|].
  destruct (String.eqb k "Engagement Level") eqn:E3; [reflexivity|].
  destruct (match stage_series df vc with
            | Some (sc, _) => String.eqb k sc
            | None => false
            end) eqn:E4; [reflexivity|].
  destruct (String.eqb k "Value Score") eqn:E5; [reflexivity|].
  apply String.eqb_neq in E1, E2, E3, E5.
  destruct (py_in k vc) eqn:E; [now apply normalized_again, py_in_In|].
  unfold normalized at 1. rewrite E, Hg. apply out_col_plain.
  - simpl. intuition congruence.
  - intros Hs. destruct (stage_series_found df vc k Hs) as (s & _ & Hss).
    rewrite Hss, String.eqb_refl in E4. discriminate.
Qed.

End Again.

(** * The claims *)



(** C2. A stage value "DA-DIRECT" in a field named "Stage": the cleaned
    text "da-direct" is looked up among keys spelled with capitals, so the
    record gets Engagement Level 0, where the table gives Da-direct level 2. *)
Example da_direct_gets_level_zero :
  let df := mkDF 1 [("Agency", [Str "Acme"]); ("Stage", [Str "DA-DIRECT"])] in
  find_stage_col (names df) = Some "Stage" /\
  dict_get "Da-direct" engagement_map = Some 2 /\
  exists out,
    process_data df (identify_value_columns df) = Some (out, 0%nat) /\
    cell_at out "Stage" 0 = Some (Str "da-direct") /\
    cell_at out "Engagement Level" 0 = Some (Flt 0).
Proof.
  cbv zeta. split; [reflexivity|]. split; [reflexivity|].
  eexists. split; [vm_compute; reflexivity|]. split; reflexivity.
Qed.

(** C3, as the claim states it, fails: a dataset without Boolean-like Fields
    has MaxScore 0, and its record is labelled "High Value Prospects", not
    "Unclassified". *)
Lemma max_score_zero_not_unclassified :
  let df := mkDF 1 [("Agency", [Str "Acme"])] in
  identify_value_columns df = [] /\
  exists out,
    process_data df (identify_value_columns df) = Some (out, 0%nat) /\
    cell_at out "Quadrant" 0 = Some (Str "High Value Prospects") /\
    cell_at out "Quadrant" 0 <> Some (Str "Unclassified").
Proof.
  cbv zeta. split; [reflexivity|].
  eexists. split; [vm_compute; reflexivity|].
  split; [reflexivity | discriminate].
Qed.

(** C3, amended.  With MaxScore 0 the value threshold is 0 and every record
    has Value Score 0, which reaches it: the record is on the high-value
    side, "Strategic Partners" when its Engagement Level is at least 2 and
    "High Value Prospects" otherwise, and never "Unclassified". *)
Theorem max_score_zero_high_side (df : DataFrame) (i : nat) :
  well_formed df -> (i < index df)%nat ->
  exists out ce e q,
    process_data df [] = Some (out, 0%nat) /\
    cell_at out "Engagement Level" i = Some ce /\ num_value ce = Some e /\
    cell_at out "Quadrant" i = Some (Str q) /\
    q = (if 2 <=? e then "Strategic Partners" else "High Value Prospects") /\
    q <> "Unclassified".
Proof.
  intros Hwf Hi.
  destruct (process_data_row df [] i Hwf (incl_nil_l _) Hi)
    as (out & Hp & _ & (ce & Hce & He) & Hq).
  exists out, ce, 0, "High Value Prospects".
  repeat split; try assumption; discriminate.
Qed.

Lemma max_score_zero_high_side_witness :
  well_formed scenario /\ (1 < index scenario)%nat /\
  exists out,
    process_data scenario [] = Some (out, 0%nat) /\
    cell_at out "Quadrant" 1 = Some (Str "High Value Prospects").
Proof.
  assert (Hwf : well_formed scenario) by (apply well_formedb_ok; reflexivity).
  assert (Hi : (1 < index scenario)%nat) by (vm_compute; lia).
  refine (conj Hwf (conj Hi _)).
  destruct (max_score_zero_high_side scenario 1%nat Hwf Hi)
    as (out & ce & e & q & Hp & _).
  exists out. split; [exact Hp|].
  vm_compute in Hp. injection Hp as <-. reflexivity.
Defined.






(** C6. Every record's Quadrant is one of the five labels; for every
    MaxScore above 0, and every value score and engagement level, exactly one
    of the four conditions holds, so the four primary labels split the
    records without overlap and the "Unclassified" default of the selection
    is never taken. *)
Theorem quadrant_labels_partition (df : DataFrame) (vc : list string) (i : nat) :
  well_formed df -> incl vc (names df) -> (i < index df)%nat ->
  (exists out q,
     process_data df vc = Some (out, List.length vc) /\
     cell_at out "Quadrant" i = Some (Str q) /\
     In q (quadrants ++ ["Unclassified"])%list /\
     ((0 < List.length vc)%nat -> In q quadrants /\ q <> "Unclassified")) /\
  (forall (m : nat) (v e : Z),
     (0 < m)%nat ->
     count_true (conditions_row m v e) = 1%nat /\
     In (quadrant_row m v e) quadrants /\
     quadrant_row m v e <> "Unclassified").
Proof.
  assert (P : forall m v e, In (quadrant_row m v e) quadrants /\
                            quadrant_row m v e <> "Unclassified").
  { intros m v e. pose proof (quadrant_row_primary m v e) as H.
    split; [exact H|]. intros E. rewrite E in H. simpl in H.
    intuition discriminate. }
  intros Hwf Hin Hi. split.
  - destruct (process_data_row df vc i Hwf Hin Hi) as (out & Hp & _ & _ & Hq).
    eexists out, _. split; [exact Hp|]. split; [exact Hq|].
    split; [apply in_or_app; left; apply P | intros _; apply P].
  - intros m v e _. split; [apply conditions_row_one | apply P].
Qed.

Lemma quadrant_labels_partition_witness :
  well_formed scenario /\
  incl (identify_value_columns scenario) (names scenario) /\
  (1 < index scenario)%nat /\
  (exists out,
     process_data scenario (identify_value_columns scenario) = Some (out, 2%nat) /\
     cell_at out "Quadrant" 1 = Some (Str "Basic Users")) /\
  count_true (conditions_row 2 1 3) = 1%nat /\
  quadrant_row 2 1 3 = "Growth Opportunities".
Proof.
  assert (Hwf : well_formed scenario) by (apply well_formedb_ok; reflexivity).
  assert (Hin : incl (identify_value_columns scenario) (names scenario))
    by apply identify_value_columns_incl.
  assert (Hi : (1 < index scenario)%nat) by (vm_compute; lia).
  refine (conj Hwf (conj Hin (conj Hi _))).
  destruct (quadrant_labels_partition scenario
              (identify_value_columns scenario) 1%nat Hwf Hin Hi)
    as ((out & q & Hp & _) & H).
  split; [|split].
  - exists out. split; [exact Hp|].
    vm_compute in Hp. injection Hp as <-. reflexivity.
  - apply (H 2%nat 1 3). lia.
  - reflexivity.
Defined.







(** C9, as the claim states it, fails: when a Boolean-like Field carries the
    name of a derived field, classifying the augmented dataset again gives
    another Value Score.  Here the input field "Value Score" is Boolean-like;
    the first run counts 2 and stores that count under the same name, which
    the second run reads as a raw value and normalizes to "No". *)
Lemma second_run_changes_value_score :
  let df := mkDF 1 [("Value Score", [Int 1]); ("FeatureA", [Str "yes"])] in
  let vc := identify_value_columns df in
  vc = ["Value Score"; "FeatureA"] /\
  exists out out',
    process_data df vc = Some (out, 2%nat) /\
    process_data out vc = Some (out', 2%nat) /\
    cell_at out "Value Score" 0 = Some (Int 2) /\
    cell_at out' "Value Score" 0 = Some (Int 1) /\
    out' <> out.
Proof.
  cbv zeta. split; [reflexivity|].
  eexists. eexists. split; [vm_compute; reflexivity|].
  split; [vm_compute; reflexivity|].
  split; [reflexivity|]. split; [reflexivity|]. discriminate.
Qed.

(** C9, amended.  For every dataset none of whose Boolean-like Fields is
    named Value Score, Engagement Level, Quadrant or Size, classifying the
    augmented dataset again returns that same augmented dataset: the same
    Boolean-like Field values, Value Scores, Engagement Levels and
    Quadrants, and the same MaxScore. *)
Theorem process_data_idempotent (df : DataFrame) (vc : list string) :
  well_formed df -> incl vc (names df) ->
  (forall c, In c vc -> ~ In c derived_names) ->
  exists out,
    process_data df vc = Some (out, List.length vc) /\
    process_data out vc = Some (out, List.length vc).
Proof.
  intros [Hnd _] Hin Hfresh.
  destruct (process_data_columns df vc Hin) as (out & Hp & Hi & Hn & Hg).
  exists out. split; [exact Hp|].
  assert (Hin' : incl vc (names out)).
  { rewrite Hn. unfold out_names. intros c Hc.
    repeat apply add_name_incl. now apply Hin. }
  destruct (process_data_columns out vc Hin') as (out' & Hp' & Hi' & Hn' & Hg').
  assert (Hsame : out_names out = names out).
  { assert (D : forall k, In k derived_names -> In k (names out)).
    { intros k Hk. rewrite Hn. unfold out_names, add_name.
      simpl in Hk.
      destruct Hk as [<-|[<-|[<-|[<-|[]]]]];
        repeat match goal with
               | |- In _ (if py_in ?k ?l then _ else _) =>
                   let E := fresh "E" in
                   destruct (py_in k l) eqn:E;
                   [try (apply py_in_In in E; exact E)|]
               | |- In ?k (?l ++ [?k])%list => apply in_or_app; right; now left
               | |- In _ (_ ++ [_])%list => apply in_or_app; left
               end. }
    unfold out_names.
    rewrite (add_name_same "Value Score") by (apply D; simpl; auto).
    rewrite (add_name_same "Engagement Level") by (apply D; simpl; auto).
    rewrite (add_name_same "Quadrant") by (apply D; simpl; tauto).
    rewrite (add_name_same "Size") by (apply D; simpl; tauto).
    reflexivity. }
  replace out' with out in Hp'; [exact Hp'|].
  apply frame_ext.
  - now rewrite Hi'.
  - now rewrite Hn', Hsame.
  - rewrite Hn. unfold out_names. now repeat apply add_name_NoDup.
  - intros k. rewrite Hg', Hg. symmetry.
    now apply out_col_again.
Qed.

Lemma process_data_idempotent_witness :
  well_formed scenario /\
  incl (identify_value_columns scenario) (names scenario) /\
  (forall c, In c (identify_value_columns scenario) -> ~ In c derived_names) /\
  exists out,
    process_data scenario (identify_value_columns scenario) = Some (out, 2%nat) /\
    process_data out (identify_value_columns scenario) = Some (out, 2%nat) /\
    cell_at out "Value Score" 0 = Some (Int 2).
Proof.
  assert (Hwf : well_formed scenario) by (apply well_formedb_ok; reflexivity).
  assert (Hin : incl (identify_value_columns scenario) (names scenario))
    by apply identify_value_columns_incl.
  assert (Hf : forall c, In c (identify_value_columns scenario) ->
                         ~ In c derived_names).
  { intros c Hc Hd. vm_compute in Hc, Hd.
    destruct Hc as [<-|[<-|[]]];
      repeat (destruct Hd as [Hd|Hd]; [discriminate Hd|]); exact Hd. }
  refine (conj Hwf (conj Hin (conj Hf _))).
  destruct (process_data_idempotent scenario (identify_value_columns scenario)
              Hwf Hin Hf) as (out & Hp & Hp').
  exists out. split; [exact Hp|]. split; [exact Hp'|].
  vm_compute in Hp. injection Hp as <-. reflexivity.
Defined.

(** C10. For every dataset the code gives every record Engagement Level 0,
    also when a stage field holds an entry of the table such as
    "Orders 360 full": the stage text is lowercased before it is looked up
    under keys spelled with capitals, so no lookup succeeds; hence no record
    is labelled "Strategic Partners" or "Growth Opportunities". *)
Theorem engagement_always_zero (df : DataFrame) (vc : list string) (i : nat) :
  well_formed df -> incl vc (names df) -> (i < index df)%nat ->
  (exists out ce q,
     process_data df vc = Some (out, List.length vc) /\
     cell_at out "Engagement Level" i = Some ce /\ num_value ce = Some 0 /\
     cell_at out "Quadrant" i = Some (Str q) /\
     q <> "Strategic Partners" /\ q <> "Growth Opportunities") /\
  (forall s, dict_get (lower (strip s)) engagement_map = None) /\
  dict_get "Orders 360 full" engagement_map = Some 4 /\
  level_of (clean_cell (Str "Orders 360 full")) = 0.
Proof.
  intros Hwf Hin Hi. split; [|split; [|split]].
  - destruct (process_data_row df vc i Hwf Hin Hi)
      as (out & Hp & _ & (ce & Hce & He) & Hq).
    exists out, ce. eexists. repeat split; try eassumption.
    + rewrite quadrant_row_cases.
      change (ge_num engagement_threshold 0) with false.
      destruct (ge_num _ _); discriminate.
    + rewrite quadrant_row_cases.
      change (ge_num engagement_threshold 0) with false.
      destruct (ge_num _ _); discriminate.
  - intros s. apply dict_get_lower.
  - reflexivity.
  - apply level_of_clean_cell.
Qed.

Lemma engagement_always_zero_witness :
  well_formed scenario /\
  incl (identify_value_columns scenario) (names scenario) /\
  (0 < index scenario)%nat /\
  cell_at scenario "Sales Stage" 0 = Some (Str "Orders 360 full") /\
  exists out,
    process_data scenario (identify_value_columns scenario) = Some (out, 2%nat) /\
    cell_at out "Engagement Level" 0 = Some (Flt 0) /\
    cell_at out "Quadrant" 0 = Some (Str "High Value Prospects").
Proof.
  assert (Hwf : well_formed scenario) by (apply well_formedb_ok; reflexivity).
  assert (Hin : incl (identify_value_columns scenario) (names scenario))
    by apply identify_value_columns_incl.
  assert (Hi : (0 < index scenario)%nat) by (vm_compute; lia).
  refine (conj Hwf (conj Hin (conj Hi (conj eq_refl _)))).
  destruct (engagement_always_zero scenario (identify_value_columns scenario)
              0%nat Hwf Hin Hi) as ((out & ce & q & Hp & _) & _).
  exists out. split; [exact Hp|].
  vm_compute in Hp. injection Hp as <-. split; reflexivity.
Defined.

(** * Further properties of [process_data] *)

Section MoreProcessData.



Lemma py_in_app (k : string) (l l' : list string) :
  py_in k (l ++ l')%list = (py_in k l || py_in k l')%bool.
Proof. apply existsb_app. Qed.

Lemma out_names_order (df : DataFrame) :
  out_names df
  = (names df
     ++ filter (fun k => negb (py_in k (names df))) derived_names)%list.
Proof.
  unfold out_names, add_name, derived_names. cbn [filter].
  destruct (py_in "Value Score" (names df)) eqn:E1;
    destruct (py_in "Engagement Level" (names df)) eqn:E2;
    destruct (py_in "Quadrant" (names df)) eqn:E3;
    destruct (py_in "Size" (names df)) eqn:E4;
    cbn [negb];
    repeat (rewrite ?py_in_app, ?E1, ?E2, ?E3, ?E4;
            repeat match goal with
                   | |- context [py_in ?k [?x]] =>
                       let b := eval vm_compute in (py_in k [x]) in
                       change (py_in k [x]) with b
                   end;
            cbn [orb]);
    rewrite <- ?app_assoc; cbn [app]; rewrite ?app_nil_r; reflexivity.
Qed.

Lemma assoc_get_of_In (k : string) (s : Series) l :
  NoDup (map fst l) -> In (k, s) l -> assoc_get k l = Some s.
Proof.
  induction l as [|[k0 v0] r IH]; simpl; [tauto|].
  intros Hnd [E|H]; inversion Hnd as [|? ? Hk Hr]; subst.
  - injection E as -> ->. now rewrite String.eqb_refl.
  - rewrite eqb_of_neq; [now apply IH|].
    intros ->. apply Hk. apply in_map_iff. now exists (k0, s).
Qed.

Lemma length_np_select (n : nat) conds choices d :
  List.length (np_select n conds choices d) = n.
Proof. unfold np_select. now rewrite length_map, length_seq. Qed.

Lemma length_level_cells (df : DataFrame) vc :
  well_formed df -> List.length (level_cells df vc) = index df.
Proof.
  intros Hwf. unfold level_cells.
  destruct (stage_series df vc) as [[sc cs]|] eqn:E.
  - rewrite !length_map. eauto using stage_series_length.
  - apply repeat_length.
Qed.

Lemma out_col_length (df : DataFrame) vc c s :
  well_formed df -> out_col df vc c = Some s -> List.length s = index df.
Proof.
  intros Hwf. unfold out_col.
  destruct (String.eqb c "Size");
    [intros [= <-]; now rewrite length_map, length_value_scores|].
  destruct (String.eqb c "Quadrant");
    [intros [= <-]; unfold quadrant_series, of_strs;
     now rewrite length_map, length_np_select|].
  destruct (String.eqb c "Engagement Level");
    [intros [= <-]; now apply length_level_cells|].
  destruct (stage_series df vc) as [[sc cs]|] eqn:E.
  - destruct (String.eqb c sc).
    + cbn [option_map snd]. intros [= <-]. eauto using stage_series_length.
    + destruct (String.eqb c "Value Score");
        [intros [= <-]; now rewrite length_map, length_value_scores|].
      now apply normalized_length.
  - destruct (String.eqb c "Value Score");
      [intros [= <-]; now rewrite length_map, length_value_scores|].
    now apply normalized_length.
Qed.

End MoreProcessData.


(** X2. The augmented frame is well formed, has the rows of the input, and
    its columns are the input's columns in their order, followed by those of
    Value Score, Engagement Level, Quadrant, Size (in this order) that the
    input did not already have. *)
Theorem process_data_shape (df : DataFrame) (vc : list string) :
  well_formed df -> incl vc (names df) ->
  exists out,
    process_data df vc = Some (out, List.length vc) /\
    well_formed out /\ index out = index df /\
    names out
    = (names df
       ++ filter (fun k => negb (py_in k (names df))) derived_names)%list.
Proof.
  intros Hwf Hin.
  destruct (process_data_columns df vc Hin) as (out & Hp & Hi & Hn & Hg).
  exists out. split; [exact Hp|].
  assert (Hnd : NoDup (names out)).
  { rewrite Hn. unfold out_names. destruct Hwf as [Hnd _].
    now repeat apply add_name_NoDup. }
  split; [|split; [exact Hi | now rewrite Hn, out_names_order]].
  split; [exact Hnd|].
  apply Forall_forall. intros [k s] Hks. cbn [snd]. rewrite Hi.
  apply (out_col_length df vc k s Hwf). rewrite <- Hg.
  now apply assoc_get_of_In.
Qed.

Lemma process_data_shape_witness :
  well_formed scenario /\
  incl (identify_value_columns scenario) (names scenario) /\
  exists out,
    process_data scenario (identify_value_columns scenario) = Some (out, 2%nat) /\
    names out = ["Agency Name"; "FeatureA"; "FeatureB"; "Sales Stage";
                 "Value Score"; "Engagement Level"; "Quadrant"; "Size"].
Proof.
  assert (Hwf : well_formed scenario) by (apply well_formedb_ok; reflexivity).
  assert (Hin : incl (identify_value_columns scenario) (names scenario))
    by apply identify_value_columns_incl.
  refine (conj Hwf (conj Hin _)).
  destruct (process_data_shape scenario (identify_value_columns scenario)
              Hwf Hin) as (out & Hp & _ & _ & Hn).
  exists out. split; [exact Hp | exact Hn].
Defined.

(** X3. The Size of a record is 8 times its Value Score plus 20; it lies
    between 20 and 8 times MaxScore plus 20. *)
Theorem size_of_record (df : DataFrame) (vc : list string) (i : nat) :
  well_formed df -> incl vc (names df) -> (i < index df)%nat ->
  exists out cv cs v,
    process_data df vc = Some (out, List.length vc) /\
    cell_at out "Value Score" i = Some cv /\ num_value cv = Some v /\
    cell_at out "Size" i = Some cs /\ num_value cs = Some (v * 8 + 20) /\
    20 <= v * 8 + 20 <= 8 * Z.of_nat (List.length vc) + 20.
Proof.
  intros Hwf Hin Hi.
  destruct (process_data_columns df vc Hin) as (out & Hp & _ & _ & Hg).
  pose proof (value_scores_row df vc i Hwf Hin Hi) as Hv.
  pose proof (yes_count_le df vc i) as Hle.
  set (v := Z.of_nat (yes_count df vc i)) in *.
  exists out, (sum_dtype vc v), (sum_dtype vc (v * 8 + 20)), v.
  split; [exact Hp|]. unfold cell_at. rewrite !Hg, out_col_value_score.
  split; [now apply map_nth_error|]. split; [now destruct vc|].
  split; [|split; [now destruct vc | unfold v; lia]].
  change (out_col df vc "Size")
    with (Some (map (fun v => sum_dtype vc (v * 8 + 20)) (value_scores df vc))).
  exact (map_nth_error (fun v => sum_dtype vc (v * 8 + 20)) i _ Hv).
Qed.

Lemma size_of_record_witness :
  well_formed scenario /\
  incl (identify_value_columns scenario) (names scenario) /\
  (0 < index scenario)%nat /\
  exists out,
    process_data scenario (identify_value_columns scenario) = Some (out, 2%nat) /\
    cell_at out "Size" 0 = Some (Int 36).
Proof.
  assert (Hwf : well_formed scenario) by (apply well_formedb_ok; reflexivity).
  assert (Hin : incl (identify_value_columns scenario) (names scenario))
    by apply identify_value_columns_incl.
  assert (Hi : (0 < index scenario)%nat) by (vm_compute; lia).
  refine (conj Hwf (conj Hin (conj Hi _))).
  destruct (size_of_record scenario (identify_value_columns scenario)
              0%nat Hwf Hin Hi) as (out & cv & cs & v & Hp & _).
  exists out. split; [exact Hp|].
  vm_compute in Hp. injection Hp as <-. reflexivity.
Defined.



Lemma is_value_column_spec (s : Series) :
  is_value_column s = true <->
  forall c, In c s -> isna c = false ->
            In (lower (strip (to_str c))) boolean_vocab.
Proof.
  unfold is_value_column, unique_vals. rewrite forallb_forall.
  unfold str_lower, str_strip, astype_str, dropna. split.
  - intros H c Hc Hn. apply py_in_In, H. apply (proj2 (unique_In _ _)).
    rewrite !map_map. apply in_map_iff. exists c. split; [reflexivity|].
    apply filter_In. now rewrite Hn.
  - intros H x Hx. apply (proj1 (unique_In _ _)) in Hx.
    rewrite !map_map in Hx. apply in_map_iff in Hx as (c & <- & Hc).
    apply filter_In in Hc as [Hc Hn]. apply py_in_In, H; [assumption|].
    now destruct (isna c).
Qed.

Lemma is_value_column_normalize (s : Series) :
  is_value_column (normalize s) = true /\
  is_value_column (clean (normalize s)) = true.
Proof.
  split; apply is_value_column_spec; intros c Hc _.
  - rewrite normalize_map in Hc. apply in_map_iff in Hc as (x & <- & _).
    rewrite yes_no_cases. destruct (is_yes x); vm_compute; tauto.
  - rewrite clean_map, normalize_map, map_map in Hc.
    apply in_map_iff in Hc as (x & <- & _).
    rewrite yes_no_cases. destruct (is_yes x); vm_compute; tauto.
Qed.

(** X5. A column that [process_data] normalised is a yes/no column for
    [process_uploaded_data]'s test: when no value column bears the name of
    a derived column, every value column of the input is identified as a
    value column of the augmented frame. *)
Theorem value_columns_stay_boolean (df : DataFrame) (vc : list string) :
  well_formed df -> incl vc (names df) ->
  (forall c, In c vc -> ~ In c derived_names) ->
  exists out,
    process_data df vc = Some (out, List.length vc) /\
    incl vc (identify_value_columns out).
Proof.
  intros Hwf Hin Hfresh.
  destruct (process_data_columns df vc Hin) as (out & Hp & _ & Hn & Hg).
  exists out. split; [exact Hp|].
  intros c Hc. unfold identify_value_columns. apply filter_In. split.
  { rewrite Hn. unfold out_names. repeat apply add_name_incl. now apply Hin. }
  rewrite Hg.
  assert (Hnorm : exists s, normalized df vc c = Some (normalize s)).
  { destruct (proj1 (getitem_In df c) (Hin c Hc)) as [s Hs].
    exists s. unfold normalized.
    now rewrite (proj2 (py_in_In c vc) Hc), Hs. }
  destruct Hnorm as [s Hs].
  destruct (option_eq_stage (find_stage_col (names df)) c) as [Hst|Hst].
  - destruct (stage_series_found df vc c Hst) as (s' & Hs' & Hss).
    rewrite (out_col_stage df vc c _ Hss).
    assert (s' = normalize s) by congruence. subst s'.
    apply is_value_column_normalize.
  - rewrite out_col_plain, Hs by auto. apply is_value_column_normalize.
Qed.

Lemma value_columns_stay_boolean_witness :
  well_formed scenario /\
  incl (identify_value_columns scenario) (names scenario) /\
  exists out,
    process_data scenario (identify_value_columns scenario) = Some (out, 2%nat) /\
    In "FeatureB" (identify_value_columns out).
Proof.
  assert (Hwf : well_formed scenario) by (apply well_formedb_ok; reflexivity).
  assert (Hin : incl (identify_value_columns scenario) (names scenario))
    by apply identify_value_columns_incl.
  refine (conj Hwf (conj Hin _)).
  destruct (value_columns_stay_boolean scenario
              (identify_value_columns scenario) Hwf Hin)
    as (out & Hp & Hi).
  - intros c Hc Hd. vm_compute in Hc, Hd.
    destruct Hc as [<-|[<-|[]]];
      repeat (destruct Hd as [Hd|Hd]; [discriminate Hd|]); exact Hd.
  - exists out. split; [exact Hp|]. apply Hi. vm_compute. tauto.
Defined.

(** * update_visualization *)

Section Visualization.











End Visualization.





(** X8. With the zones shown and MaxScore above 0, the marker of a record
    (its Value Score between 0 and MaxScore on the x axis, its Engagement
    Level between 0 and 4 on the y axis) lies in the background rectangle
    filled with the colour of the record's Quadrant. *)
Theorem zones_match_quadrant (max_score : nat) (show_quadrants : list string)
  (v e : Z) :
  (0 < max_score)%nat -> In "show" show_quadrants ->
  0 <= v <= Z.of_nat max_score -> 0 <= e <= 4 ->
  exists z,
    In z (zone_shapes show_quadrants max_score) /\
    shape_type z = "rect" /\
    fillcolor z = color_of (quadrant_row max_score v e) /\
    inside z (inject_Z v) (inject_Z e).
Proof.
  intros Hm Hs Hv He. unfold zone_shapes.
  rewrite (proj2 (py_in_In _ _) Hs), (proj2 (Nat.ltb_lt _ _) Hm).
  cbn [andb]. rewrite quadrant_row_cases.
  rewrite ge_value_threshold, ge_engagement_threshold.
  assert (I : forall x0 y0 x1 y1 c,
             (x0 <= inject_Z v)%Q -> (inject_Z v <= x1)%Q ->
             (y0 <= inject_Z e)%Q -> (inject_Z e <= y1)%Q ->
             inside (mkShape "rect" x0 y0 x1 y1 c) (inject_Z v) (inject_Z e)).
  { intros. unfold inside. cbn [x0 y0 x1 y1]. tauto. }
  destruct (13 * Z.of_nat max_score <=? 20 * v) eqn:Ev;
    destruct (2 <=? e) eqn:Ee;
    [apply Z.leb_le in Ev | apply Z.leb_le in Ev | apply Z.leb_gt in Ev
     | apply Z.leb_gt in Ev];
    [apply Z.leb_le in Ee | apply Z.leb_gt in Ee | apply Z.leb_le in Ee
     | apply Z.leb_gt in Ee].
  - eexists. split; [left; reflexivity|].
    split; [reflexivity|]. split; [reflexivity|].
    apply I; unfold Qle, value_threshold, engagement_threshold;
      cbn [Qnum Qden Qmult inject_Z]; lia.
  - eexists. split; [right; right; left; reflexivity|].
    split; [reflexivity|]. split; [reflexivity|].
    apply I; unfold Qle, value_threshold, engagement_threshold;
      cbn [Qnum Qden Qmult inject_Z]; lia.
  - eexists. split; [right; left; reflexivity|].
    split; [reflexivity|]. split; [reflexivity|].
    apply I; unfold Qle, value_threshold, engagement_threshold;
      cbn [Qnum Qden Qmult inject_Z]; lia.
  - eexists. split; [right; right; right; left; reflexivity|].
    split; [reflexivity|]. split; [reflexivity|].
    apply I; unfold Qle, value_threshold, engagement_threshold;
      cbn [Qnum Qden Qmult inject_Z]; lia.
Qed.

Lemma zones_match_quadrant_witness :
  (0 < 2)%nat /\ In "show" ["show"] /\ 0 <= 1 <= Z.of_nat 2 /\ 0 <= 3 <= 4 /\
  exists z,
    In z (zone_shapes ["show"] 2) /\
    fillcolor z = Some "#55A868" /\ inside z (inject_Z 1) (inject_Z 3).
Proof.
  assert (Hm : (0 < 2)%nat) by lia.
  assert (Hs : In "show" ["show"]) by (simpl; tauto).
  assert (Hv : 0 <= 1 <= Z.of_nat 2) by (simpl; lia).
  assert (He : 0 <= 3 <= 4) by lia.
  refine (conj Hm (conj Hs (conj Hv (conj He _)))).
  destruct (zones_match_quadrant 2 ["show"] 1 3 Hm Hs Hv He)
    as (z & Hz & _ & Hc & Hi).
  exists z. split; [exact Hz|]. split; [exact Hc | exact Hi].
Defined.

(** X9. With the zones shown and MaxScore above 0, the four background
    rectangles tile the chart area from (0, 0) to (MaxScore, 4.5): every
    point of the area is in one of them and a point strictly inside one is
    in no other; each quadrant label carries the colour of its quadrant and
    is placed strictly inside the rectangle filled with that colour. *)
Theorem zones_tile_chart (max_score : nat) (show_quadrants : list string) :
  (0 < max_score)%nat -> In "show" show_quadrants ->
  let zones := zone_shapes show_quadrants max_score in
  (forall x y : Q,
     (0 <= x)%Q -> (x <= inject_Z (Z.of_nat max_score))%Q ->
     (0 <= y)%Q -> (y <= 45 # 10)%Q ->
     exists z, In z zones /\ inside z x y) /\
  (forall z z' x y,
     In z zones -> In z' zones ->
     strictly_inside z x y -> inside z' x y -> z = z') /\
  (forall a, In a (quadrant_annotations max_score) ->
     ann_color a = color_of (ann_text a) /\
     exists z, In z zones /\ fillcolor z = ann_color a /\
               strictly_inside z (ann_x a) (ann_y a)).
Proof.
  intros Hm Hs zones. unfold zones, zone_shapes, quadrant_annotations.
  rewrite (proj2 (py_in_In _ _) Hs), (proj2 (Nat.ltb_lt _ _) Hm).
  cbn [andb].
  assert (Hq : (0 < inject_Z (Z.of_nat max_score))%Q).
  { unfold Qlt. cbn [Qnum Qden inject_Z]. lia. }
  unfold value_threshold, engagement_threshold.
  set (q := inject_Z (Z.of_nat max_score)) in *. clearbody q.
  split; [|split].
  - intros x y Hx0 Hx1 Hy0 Hy1.
    destruct (Qlt_le_dec x (q * (65 # 100))) as [Hx|Hx];
      destruct (Qlt_le_dec y (2 # 1)) as [Hy|Hy].
    + eexists. split; [right; right; right; left; reflexivity|].
      unfold inside. cbn [x0 y0 x1 y1]. repeat split; lra.
    + eexists. split; [right; left; reflexivity|].
      unfold inside. cbn [x0 y0 x1 y1]. repeat split; lra.
    + eexists. split; [right; right; left; reflexivity|].
      unfold inside. cbn [x0 y0 x1 y1]. repeat split; lra.
    + eexists. split; [left; reflexivity|].
      unfold inside. cbn [x0 y0 x1 y1]. repeat split; lra.
  - intros z z' x y Hz Hz' Hin Hin'. cbn [In] in Hz, Hz'.
    unfold strictly_inside in Hin. unfold inside in Hin'.
    destruct Hz as [<-|[<-|[<-|[<-|[]]]]];
      destruct Hz' as [<-|[<-|[<-|[<-|[]]]]];
      cbn [x0 y0 x1 y1] in Hin, Hin'; try reflexivity; exfalso; lra.
  - intros a Ha. cbn [In] in Ha. unfold Qdiv in Ha.
    change (/ (2 # 1))%Q with (1 # 2) in Ha.
    destruct Ha as [<-|[<-|[<-|[<-|[]]]]]; (split; [reflexivity|]).
    + eexists. split; [left; reflexivity|]. split; [reflexivity|].
      unfold strictly_inside. cbn [x0 y0 x1 y1 ann_x ann_y].
      repeat split; lra.
    + eexists. split; [right; left; reflexivity|]. split; [reflexivity|].
      unfold strictly_inside. cbn [x0 y0 x1 y1 ann_x ann_y].
      repeat split; lra.
    + eexists. split; [right; right; left; reflexivity|].
      split; [reflexivity|].
      unfold strictly_inside. cbn [x0 y0 x1 y1 ann_x ann_y].
      repeat split; lra.
    + eexists. split; [right; right; right; left; reflexivity|].
      split; [reflexivity|].
      unfold strictly_inside. cbn [x0 y0 x1 y1 ann_x ann_y].
      repeat split; lra.
Qed.

Lemma zones_tile_chart_witness :
  (0 < 2)%nat /\ In "show" ["show"] /\
  exists z, In z (zone_shapes ["show"] 2) /\ inside z (1 # 2) (9 # 4).
Proof.
  assert (Hm : (0 < 2)%nat) by lia.
  assert (Hs : In "show" ["show"]) by (simpl; tauto).
  refine (conj Hm (conj Hs _)).
  destruct (zones_tile_chart 2 ["show"] Hm Hs) as (Hc & _ & _).
  apply Hc; unfold Qle; cbn; lia.
Defined.

(** * The command-line tools *)

Section Tools.












End Tools.












(** X15. For every MaxScore up to 120 and every Value Score from 0 to
    MaxScore, the two threshold tests carried out in binary64, as the
    interpreter does ([score >= max_score * 0.65] and
    [score < max_score * 0.65] with the rounded product), give the answers
    of the exact comparisons with 65% of MaxScore. *)
Theorem float_threshold_exact (max_score v : nat) :
  (max_score <= 120)%nat -> (v <= max_score)%nat ->
  float_ge max_score v = ge_num (value_threshold max_score) (Z.of_nat v) /\
  float_lt max_score v = lt_num (value_threshold max_score) (Z.of_nat v).
Proof.
  intros Hm Hv. pose proof float_thresholds_agree as A.
  unfold thresholds_agree in A. rewrite forallb_forall in A.
  specialize (A max_score). rewrite forallb_forall in A.
  assert (Hin : In max_score (seq 0 121)) by (apply in_seq; lia).
  specialize (A Hin v). 
  assert (Hin' : In v (seq 0 (S max_score))) by (apply in_seq; lia).
  specialize (A Hin'). apply andb_prop in A as [A1 A2].
  split; now apply Bool.eqb_prop.
Qed.

Lemma float_threshold_exact_witness :
  (20 <= 120)%nat /\ (13 <= 20)%nat /\
  float_ge 20 13 = true /\ float_lt 20 13 = false.
Proof.
  assert (Hm : (20 <= 120)%nat) by lia.
  assert (Hv : (13 <= 20)%nat) by lia.
  refine (conj Hm (conj Hv _)).
  destruct (float_threshold_exact 20 13 Hm Hv) as [-> ->].
  split; reflexivity.
Defined.
